(** * typing-deprecated-pep: the runtime deprecators and the [Deprecated] qualifier

    A shallow embedding of the Python sources under [examples/]:

    - [callables.py]: [issue_deprecation_warning], the two successive
      definitions of [deprecate_function], [deprecate_renamed_function]
      and the decorated [my_function];
    - [factories.py]: [deprecate_func], [deprecate_func_2],
      [actual_deprecator], [my_func] and [MyClass];
    - [typing_deprecated.py]: [Deprecated.__class_getitem__];
    - [invalid.py]: the return-type examples, checked against the
      placement rules of the specification.

    Python code is effectful: a call may change the interpreter state,
    emit warnings, print, and raise.  Calls are therefore computations in
    a small monad [Py] that threads the host state, accumulates the
    emissions in order and carries either a result or an exception. *)

From Stdlib Require Import ZArith.
From stdpp Require Import base list gmap strings pretty.

Set Warnings "-register-all".
Local Open Scope string_scope.
Local Open Scope list_scope.

(** ** Python values, exceptions and call arguments *)

(** A class is referred to by the module that defines it, its qualified
    name and its [__name__]. *)
Record class_ref := ClassRef {
  cr_module : string;
  cr_qualname : string;
  cr_name : string
}.

(** The values that flow through the modelled calls: [None], integers,
    strings, and instances of user classes with their attributes. *)
Inductive pyvalue :=
| VNone
| VInt (n : Z)
| VStr (s : string)
| VObject (cls : class_ref) (attrs : list (string * pyvalue)).

(** A raised exception: the name of its class (its kind) and the message
    it was built with (its payload). *)
Record pyexn := PyExn {
  exn_kind : string;
  exn_payload : string
}.

Definition TypeError (msg : string) : pyexn := PyExn "TypeError" msg.
Definition IndexError (msg : string) : pyexn := PyExn "IndexError" msg.

(** What a call is made with: the positional and the keyword arguments. *)
Record args := Args {
  positional : list pyvalue;
  keywords : list (string * pyvalue)
}.

(** ** The host: state, warning sink and standard output *)

Inductive warning_category :=
| UserWarning
| DeprecationWarning
| PendingDeprecationWarning
| FutureWarning.

(** A warning the sink has accepted: message, category and the integer
    stack level. *)
Record signal := Signal {
  sig_message : string;
  sig_category : warning_category;
  sig_stacklevel : Z
}.

(** An emission observable from outside a call. *)
Inductive event :=
| Warned (s : signal)
| Printed (line : string).

Inductive outcome (A : Type) :=
| Return (a : A)
| Raise (e : pyexn).
Arguments Return {A} a.
Arguments Raise {A} e.

(** The host environment the modules run in: the interpreter state, the
    sink [warnings.warn] of the standard library, which [callables.py]
    calls and does not define, and the [__name__] under which the two
    files are loaded.  The sink is given the message, the category and
    whatever object is passed as [stacklevel]; it may change the state,
    emit, return or raise.  CPython's own sink is [cpython_warn] below. *)
Class Host := {
  store : Type;
  warnings_warn :
    string -> warning_category -> pyvalue ->
    store -> store * list event * outcome unit;
  callables_module : string;
  factories_module : string
}.

Section Runtime.
Context `{host : Host}.

(** A computation: from the state before to the state after, the
    emissions made on the way (oldest first) and the outcome. *)
Definition Py (A : Type) : Type := store -> store * list event * outcome A.

Definition py_ret {A} (a : A) : Py A := fun s => (s, [], Return a).

Definition py_raise {A} (e : pyexn) : Py A := fun s => (s, [], Raise e).

Definition py_bind {A B} (m : Py A) (k : A -> Py B) : Py B :=
  fun s =>
    match m s with
    | (s1, ev1, Return a) =>
        match k a s1 with
        | (s2, ev2, o) => (s2, ev1 ++ ev2, o)
        end
    | (s1, ev1, Raise e) => (s1, ev1, Raise e)
    end.

Definition py_emit (e : event) : Py unit := fun s => (s, [e], Return tt).

Definition py_lift {A} (o : outcome A) : Py A := fun s => (s, [], o).

End Runtime.

Declare Scope py_scope.
Delimit Scope py_scope with py.
Notation "'do' x <- m ; k" := (py_bind m (fun x => k))
  (at level 10, x name, m at level 100, k at level 200,
   format "'[v' 'do'  x  <-  m ; '/' k ']'") : py_scope.
Notation "'do_' m ; k" := (py_bind m (fun _ => k))
  (at level 10, m at level 100, k at level 200,
   format "'[v' 'do_'  m ; '/' k ']'") : py_scope.
Local Open Scope py_scope.

Section Objects.
Context `{host : Host}.

(** What came out of a run. *)
Definition emitted {A} (r : store * list event * outcome A) : list event :=
  snd (fst r).
Definition result {A} (r : store * list event * outcome A) : outcome A :=
  snd r.
Definition final_store {A} (r : store * list event * outcome A) : store :=
  fst (fst r).

(** *** Standard output *)

(** [print(line)]. *)
Definition print (line : string) : Py unit := py_emit (Printed line).

(** ** Function objects and [inspect.signature] *)

Inductive param_kind :=
| POSITIONAL_ONLY
| POSITIONAL_OR_KEYWORD
| VAR_POSITIONAL
| KEYWORD_ONLY
| VAR_KEYWORD.

Record parameter := Param {
  p_name : string;
  p_kind : param_kind;
  p_default : option pyvalue;
  p_annotation : option string
}.

Record py_signature := Signature {
  sig_parameters : list parameter;
  sig_return_annotation : option string
}.

(** A function object, as a [def] statement creates it.  The five
    attributes of [functools.WRAPPER_ASSIGNMENTS] are always present on
    it.  [__signature__] and [__wrapped__] live in [__dict__] in Python;
    they are kept as fields of their own here, and [f_dict] holds the
    other user attributes.  Annotations are kept as the text of the
    annotation expression.  [f_code_signature] is the signature read off
    the code object, [f_call] what calling the object does. *)
Inductive pyfunc := PyFunc {
  f_module : string;
  f_name : string;
  f_qualname : string;
  f_doc : option string;
  f_annotations : list (string * string);
  f_dict : gmap string pyvalue;
  f_signature_attr : option py_signature;
  f_wrapped : option pyfunc;
  f_code_signature : py_signature;
  f_call : args -> Py pyvalue
}.

(** [inspect.signature(obj)]: follow [__wrapped__] until an object that
    carries [__signature__], use that attribute if there is one and the
    code object's signature otherwise. *)
Fixpoint inspect_signature (f : pyfunc) : py_signature :=
  match f with
  | PyFunc _ _ _ _ _ _ (Some sg) _ _ _ => sg
  | PyFunc _ _ _ _ _ _ None (Some g) _ _ => inspect_signature g
  | PyFunc _ _ _ _ _ _ None None code _ => code
  end.

(** [functools.update_wrapper(wrapper, wrapped)], which [@wraps(wrapped)]
    applies: the attributes of [WRAPPER_ASSIGNMENTS] are copied,
    [wrapper.__dict__] is updated with [wrapped.__dict__] (the entries of
    [wrapped] win), then [__wrapped__] is set. *)
Definition update_wrapper (wrapper wrapped : pyfunc) : pyfunc :=
  {| f_module := f_module wrapped;
     f_name := f_name wrapped;
     f_qualname := f_qualname wrapped;
     f_doc := f_doc wrapped;
     f_annotations := f_annotations wrapped;
     f_dict := f_dict wrapped ∪ f_dict wrapper;
     f_signature_attr :=
       match f_signature_attr wrapped with
       | Some sg => Some sg
       | None => f_signature_attr wrapper
       end;
     f_wrapped := Some wrapped;
     f_code_signature := f_code_signature wrapper;
     f_call := f_call wrapper |}.

Definition wraps (wrapped : pyfunc) (wrapper : pyfunc) : pyfunc :=
  update_wrapper wrapper wrapped.

(** [f.__signature__ = sg]. *)
Definition set_signature (sg : py_signature) (f : pyfunc) : pyfunc :=
  {| f_module := f_module f;
     f_name := f_name f;
     f_qualname := f_qualname f;
     f_doc := f_doc f;
     f_annotations := f_annotations f;
     f_dict := f_dict f;
     f_signature_attr := Some sg;
     f_wrapped := f_wrapped f;
     f_code_signature := f_code_signature f;
     f_call := f_call f |}.

(** The signature of a [def] whose parameters are [*args: P.args] and
    [**kwargs: P.kwargs], with return annotation [ret]. *)
Definition star_args_signature (ret : string) : py_signature :=
  {| sig_parameters :=
       [ Param "args" VAR_POSITIONAL None (Some "P.args");
         Param "kwargs" VAR_KEYWORD None (Some "P.kwargs") ];
     sig_return_annotation := Some ret |}.

End Objects.

(** ** Classes and callables *)

Section Callables.
Context `{host : Host}.

(** A class written with a [class] statement that keeps [object.__new__]
    and [type.__call__]: calling it allocates an instance of that very
    class and runs [__init__], which fills in the attributes or raises. *)
Record pyclass := PyClass {
  c_ref : class_ref;
  c_init : args -> Py (list (string * pyvalue))
}.

Definition construct (k : pyclass) (a : args) : Py pyvalue :=
  do attrs <- c_init k a;
  py_ret (VObject (c_ref k) attrs).

(** What [Callable[P, R]] ranges over here: function objects and classes. *)
Inductive callable :=
| CFunction (f : pyfunc)
| CClass (k : pyclass).

(** Calling [func] with the positional and keyword arguments [a]. *)
Definition py_call (func : callable) (a : args) : Py pyvalue :=
  match func with
  | CFunction f => f_call f a
  | CClass k => construct k a
  end.

(** [type(v) is k]: [v] is an instance of [k] itself. *)
Definition instance_of (v : pyvalue) (k : pyclass) : Prop :=
  match v with
  | VObject cls _ => cls = c_ref k
  | _ => False
  end.

(** ** [callables.py] *)

(** [def find_stacklevel() -> int: ...]: the body is the expression
    [...], so a call evaluates it and returns [None]. *)
Definition find_stacklevel : Py pyvalue := py_ret VNone.

(** [issue_deprecation_warning(message, *, version)]:
    [warnings.warn(message, DeprecationWarning, stacklevel=find_stacklevel())]. *)
Definition issue_deprecation_warning (message : string) (version : string)
    : Py unit :=
  do stacklevel <- find_stacklevel;
  warnings_warn message DeprecationWarning stacklevel.

(** A decorator returned by a decorator factory: the annotations of the
    inner [decorate] and what applying it to a function returns. *)
Record decorator := Decorator {
  dec_annotations : list (string * string);
  dec_apply : pyfunc -> pyfunc
}.

(** *** The first [deprecate_function] (lines 43 to 60) *)

(** Its [def wrapper] statement, before [@wraps] is applied. *)
Definition wrapper_shadowed (message version : string) (function : pyfunc)
    : pyfunc :=
  {| f_module := callables_module;
     f_name := "wrapper";
     f_qualname := "deprecate_function.<locals>.decorate.<locals>.wrapper";
     f_doc := None;
     f_annotations :=
       [("args", "P.args"); ("kwargs", "P.kwargs"); ("return", "T")];
     f_dict := ∅;
     f_signature_attr := None;
     f_wrapped := None;
     f_code_signature := star_args_signature "T";
     f_call := fun a =>
       do_ issue_deprecation_warning
             ("`" +:+ f_qualname function +:+ "` is deprecated. " +:+ message)
             version;
       f_call function a |}.

(** Its [decorate]: the wrapper under [@wraps(function)], then
    [wrapper.__signature__ = inspect.signature(function)]. *)
Definition decorate_shadowed (message version : string) (function : pyfunc)
    : pyfunc :=
  let wrapper := wraps function (wrapper_shadowed message version function) in
  set_signature (inspect_signature function) wrapper.

Definition deprecate_function_shadowed (message version : string)
    : decorator :=
  {| dec_annotations :=
       [("function", "Callable[P, T]"); ("return", "Callable[P, T]")];
     dec_apply := decorate_shadowed message version |}.

(** *** The second [deprecate_function] (lines 70 to 87)

    This is the definition the name is bound to once the module is
    loaded; only the return annotations differ from the first. *)

Definition wrapper (message version : string) (function : pyfunc) : pyfunc :=
  {| f_module := callables_module;
     f_name := "wrapper";
     f_qualname := "deprecate_function.<locals>.decorate.<locals>.wrapper";
     f_doc := None;
     f_annotations :=
       [("args", "P.args"); ("kwargs", "P.kwargs"); ("return", "T")];
     f_dict := ∅;
     f_signature_attr := None;
     f_wrapped := None;
     f_code_signature := star_args_signature "T";
     f_call := fun a =>
       do_ issue_deprecation_warning
             ("`" +:+ f_qualname function +:+ "` is deprecated. " +:+ message)
             version;
       f_call function a |}.

Definition decorate (message version : string) (function : pyfunc) : pyfunc :=
  let wrapper := wraps function (wrapper message version function) in
  set_signature (inspect_signature function) wrapper.

Definition deprecate_function (message version : string) : decorator :=
  {| dec_annotations :=
       [("function", "Callable[P, T]");
        ("return", "Deprecated[Callable[P, T]]")];
     dec_apply := decorate message version |}.

(** [deprecate_renamed_function(new_name, *, version)].  The global name
    [deprecate_function] is looked up when the body runs, by which time
    it is bound to the second definition. *)
Definition deprecate_renamed_function (new_name version : string)
    : decorator :=
  deprecate_function ("It has been renamed to `" +:+ new_name +:+ "`.") version.

(** ** [factories.py] *)

(** [deprecate_func]: [return func]. *)
Definition deprecate_func (func : callable) : callable := func.

(** [deprecate_func_2]: [return func]. *)
Definition deprecate_func_2 (func : callable) : callable := func.

(** [actual_deprecator]: the inner [decorator], returned as it is (no
    [@wraps]). *)
Definition actual_deprecator (func : callable) : pyfunc :=
  {| f_module := factories_module;
     f_name := "decorator";
     f_qualname := "actual_deprecator.<locals>.decorator";
     f_doc := None;
     f_annotations :=
       [("args", "P.args"); ("kwargs", "P.kwargs"); ("return", "R")];
     f_dict := ∅;
     f_signature_attr := None;
     f_wrapped := None;
     f_code_signature := star_args_signature "R";
     f_call := fun a =>
       do_ print "This function is deprecated.";
       py_call func a |}.

End Callables.

(** ** The sample functions and class of the two modules *)

Section Samples.
Context `{host : Host}.

Definition quoted (s : string) : string := "'" +:+ s +:+ "'".

(** The double quote character, as a one-character string. *)
Definition dquote : string :=
  String (Ascii.Ascii false true false false false true false false) EmptyString.

Definition plural (n : nat) : string := if decide (n = 1) then "" else "s".

Fixpoint format_tail (names : list string) : string :=
  match names with
  | [] => ""
  | [x] => x
  | [x; y] => x +:+ ", and " +:+ y
  | x :: rest => x +:+ ", " +:+ format_tail rest
  end.

(** How CPython lists the missing arguments: ['a'], ['a' and 'b'],
    ['a', 'b', and 'c']. *)
Definition format_missing (names : list string) : string :=
  match names with
  | [x; y] => x +:+ " and " +:+ y
  | _ => format_tail names
  end.

(** Keyword arguments are stored one after the other; an unknown name or
    a parameter that already has a value raises [TypeError]. *)
Fixpoint bind_keywords (qualname : string) (names : list string)
    (kws : list (string * pyvalue)) (locals : gmap string pyvalue)
    : outcome (gmap string pyvalue) :=
  match kws with
  | [] => Return locals
  | (k, v) :: rest =>
      if bool_decide (k ∈ names) then
        match locals !! k with
        | Some _ =>
            Raise (TypeError
              (qualname +:+ "() got multiple values for argument " +:+ quoted k))
        | None => bind_keywords qualname names rest (<[k:=v]> locals)
        end
      else
        Raise (TypeError
          (qualname +:+ "() got an unexpected keyword argument " +:+ quoted k))
  end.

(** Binding the arguments of a call to a function whose parameters are
    all positional-or-keyword and have no default, in CPython's order:
    positional arguments, keyword arguments, the check for too many
    positional arguments, the check for missing ones. *)
Definition bind_arguments (qualname : string) (names : list string) (a : args)
    : outcome (gmap string pyvalue) :=
  let given := length (positional a) in
  let expected := length names in
  match
    bind_keywords qualname names (keywords a)
      (list_to_map (zip names (positional a)))
  with
  | Raise e => Raise e
  | Return locals =>
      if decide (expected < given)%nat then
        Raise (TypeError
          (qualname +:+ "() takes " +:+ pretty expected
             +:+ " positional argument" +:+ plural expected
             +:+ " but " +:+ pretty given
             +:+ (if decide (given = 1) then " was given" else " were given")))
      else
        let missing := filter (fun n => locals !! n = None) names in
        match missing with
        | [] => Return locals
        | _ =>
            Raise (TypeError
              (qualname +:+ "() missing " +:+ pretty (length missing)
                 +:+ " required positional argument"
                 +:+ plural (length missing) +:+ ": "
                 +:+ format_missing (quoted <$> missing)))
        end
  end.

(** Reading a local variable. *)
Definition load (name : string) (locals : gmap string pyvalue)
    : outcome pyvalue :=
  match locals !! name with
  | Some v => Return v
  | None =>
      Raise (PyExn "UnboundLocalError"
        ("cannot access local variable " +:+ quoted name
           +:+ " where it is not associated with a value"))
  end.

(** [type(v).__name__]. *)
Definition type_name (v : pyvalue) : string :=
  match v with
  | VNone => "NoneType"
  | VInt _ => "int"
  | VStr _ => "str"
  | VObject cls _ => cr_name cls
  end.

(** [x + y] on the modelled values; instances of user classes carry
    attributes only and define no operator. *)
Definition py_add (x y : pyvalue) : outcome pyvalue :=
  match x, y with
  | VInt m, VInt n => Return (VInt (m + n))
  | VStr s, VStr t => Return (VStr (s +:+ t))
  | VStr _, _ =>
      Raise (TypeError
        ("can only concatenate str (not " +:+ dquote +:+ type_name y
           +:+ dquote +:+ ") to str"))
  | _, _ =>
      Raise (TypeError
        ("unsupported operand type(s) for +: " +:+ quoted (type_name x)
           +:+ " and " +:+ quoted (type_name y)))
  end.

(** The body shared by [my_function] and [my_func]: [return a + b]. *)
Definition add_body (qualname : string) (a : args) : Py pyvalue :=
  do locals <- py_lift (bind_arguments qualname ["a"; "b"] a);
  do x <- py_lift (load "a" locals);
  do y <- py_lift (load "b" locals);
  py_lift (py_add x y).

Definition int_int_signature : py_signature :=
  {| sig_parameters :=
       [ Param "a" POSITIONAL_OR_KEYWORD None (Some "int");
         Param "b" POSITIONAL_OR_KEYWORD None (Some "int") ];
     sig_return_annotation := Some "int" |}.

(** [def my_function(a: int, b: int) -> int] of [callables.py], as the
    [def] statement creates it. *)
Definition my_function_def : pyfunc :=
  {| f_module := callables_module;
     f_name := "my_function";
     f_qualname := "my_function";
     f_doc := None;
     f_annotations := [("a", "int"); ("b", "int"); ("return", "int")];
     f_dict := ∅;
     f_signature_attr := None;
     f_wrapped := None;
     f_code_signature := int_int_signature;
     f_call := add_body "my_function" |}.

(** The name [my_function] after its decorator has run. *)
Definition my_function : pyfunc :=
  dec_apply (deprecate_function "Use `my_function` instead." "0.20.4")
    my_function_def.

(** [def my_func(a: int, b: int) -> int] of [factories.py]. *)
Definition my_func_def : pyfunc :=
  {| f_module := factories_module;
     f_name := "my_func";
     f_qualname := "my_func";
     f_doc := None;
     f_annotations := [("a", "int"); ("b", "int"); ("return", "int")];
     f_dict := ∅;
     f_signature_attr := None;
     f_wrapped := None;
     f_code_signature := int_int_signature;
     f_call := add_body "my_func" |}.

Definition my_func : callable := deprecate_func (CFunction my_func_def).

(** [class MyClass(object): ...]: no attribute, and no argument accepted. *)
Definition MyClass_def : pyclass :=
  {| c_ref := ClassRef factories_module "MyClass" "MyClass";
     c_init := fun a =>
       match positional a, keywords a with
       | [], [] => py_ret []
       | _, _ => py_raise (TypeError "MyClass() takes no arguments")
       end |}.

(** The name [MyClass] after [@actual_deprecator] has run. *)
Definition MyClass : pyfunc := actual_deprecator (CClass MyClass_def).

End Samples.

(** ** CPython's sink *)

(** What the warning filters decide for an accepted warning. *)
Inductive filter_action :=
| ActionShow
| ActionIgnore
| ActionError.

Definition category_name (c : warning_category) : string :=
  match c with
  | UserWarning => "UserWarning"
  | DeprecationWarning => "DeprecationWarning"
  | PendingDeprecationWarning => "PendingDeprecationWarning"
  | FutureWarning => "FutureWarning"
  end.

(** [warnings.warn(message, category, stacklevel=...)] as CPython runs it.
    [stacklevel] is converted to an integer first: an object that is not
    one raises [TypeError] before anything else happens.  The filters,
    which read and update the sink's own state, then decide whether the
    warning is shown, dropped, or raised as an exception of the category. *)
Definition cpython_warn {S : Type}
    (filters : S -> signal -> filter_action * S) (message : string)
    (category : warning_category) (stacklevel : pyvalue)
    : S -> S * list event * outcome unit :=
  fun s =>
    match stacklevel with
    | VInt n =>
        match filters s (Signal message category n) with
        | (ActionShow, s') =>
            (s', [Warned (Signal message category n)], Return tt)
        | (ActionIgnore, s') => (s', [], Return tt)
        | (ActionError, s') =>
            (s', [], Raise (PyExn (category_name category) message))
        end
    | _ =>
        (s, [],
         Raise (TypeError
           ("'" +:+ type_name stacklevel
              +:+ "' object cannot be interpreted as an integer")))
    end.

(** CPython with the given filters and module names. *)
Definition cpython_host {S : Type}
    (filters : S -> signal -> filter_action * S) (cm fm : string) : Host :=
  {| store := S;
     warnings_warn := cpython_warn filters;
     callables_module := cm;
     factories_module := fm |}.

(** A host to run the samples on: CPython with no filter state, every
    accepted warning shown, both files loaded under their file names. *)
Definition script_host : Host :=
  cpython_host (S:=unit) (fun s _ => (ActionShow, s)) "callables" "factories".

(** A host whose [warnings.warn] has been replaced by a recorder, as a
    test double does: the state is the list of the calls received, each
    with its three arguments, and every call returns [None]. *)
Definition recording_host : Host :=
  {| store := list (string * warning_category * pyvalue);
     warnings_warn := fun message category stacklevel s =>
       (s ++ [(message, category, stacklevel)], [], Return tt);
     callables_module := "callables";
     factories_module := "factories" |}.

Definition call_args (vs : list pyvalue) : args := Args vs [].

(** ** [typing_deprecated.py] *)

(** The objects a subscript of [Deprecated] is made of: plain class
    objects that cannot be subscripted, such as [int] or [bool]; the
    built-in generic classes, such as [list], [dict], [tuple] or [type],
    whose subscript builds an alias whatever the argument; such an alias
    with an integer argument, [list[0]]; and tuples of these objects. *)
Inductive pyobj :=
| OClass (name : string)
| OGeneric (name : string)
| OAlias (name : string) (index : nat)
| OTuple (items : list pyobj).

(** An [Annotated[origin, *metadata]] alias. *)
Record annotated := AnnotatedAlias {
  ann_origin : pyobj;
  ann_metadata : list pyobj
}.

Fixpoint py_repr (o : pyobj) : string :=
  match o with
  | OClass name => "<class " +:+ quoted name +:+ ">"
  | OGeneric name => "<class " +:+ quoted name +:+ ">"
  | OAlias name index => name +:+ "[" +:+ pretty index +:+ "]"
  | OTuple [] => "()"
  | OTuple [x] => "(" +:+ py_repr x +:+ ",)"
  | OTuple items => "(" +:+ String.concat ", " (List.map py_repr items) +:+ ")"
  end.

(** [o[i]]: a tuple is indexed, a plain class is not subscriptable, a
    built-in generic class answers the alias, and an alias that has no
    type variable left cannot be subscripted again. *)
Definition py_getitem (o : pyobj) (i : nat) : outcome pyobj :=
  match o with
  | OClass name =>
      Raise (TypeError ("type " +:+ quoted name +:+ " is not subscriptable"))
  | OGeneric name => Return (OAlias name i)
  | OAlias _ _ => Raise (TypeError (py_repr o +:+ " is not a generic class"))
  | OTuple items =>
      match items !! i with
      | Some x => Return x
      | None => Raise (IndexError "tuple index out of range")
      end
  end.

(** [Annotated[origin, metadata]]: the origin must be a type, which a
    class or an alias is and a tuple is not; its [repr] is cut to 100
    characters in the message. *)
Definition typing_Annotated (origin metadata : pyobj) : outcome annotated :=
  match origin with
  | OClass _ | OGeneric _ | OAlias _ _ =>
      Return (AnnotatedAlias origin [metadata])
  | OTuple _ =>
      Raise (TypeError
        ("Annotated[t, ...]: t must be a type. Got "
           +:+ String.substring 0 100 (py_repr origin) +:+ "."))
  end.

Module Deprecated.

(** [Deprecated[params]] calls [__class_getitem__(cls, params)]:
    [return Annotated[params[0], params[1]]]. *)
Definition __class_getitem__ (params : pyobj) : outcome annotated :=
  match py_getitem params 0 with
  | Raise e => Raise e
  | Return origin =>
      match py_getitem params 1 with
      | Raise e => Raise e
      | Return metadata => typing_Annotated origin metadata
      end
  end.

End Deprecated.

(** [int], and the subscript of [Deprecated[int]]. *)
Definition int_class : pyobj := OClass "int".

(** ** The placement rules for the qualifier *)

Module Placement.

(** Modelled from the spec: the repository has no Placement Validator,
    only the annotated examples of [invalid.py], [params.py],
    [constants.py] and [classes.py]; the data model of section 3 and the
    ordered rules of section 4.2 are written out here. *)
Record DeprecationMarker := Marker {
  message : string;
  version : string;
  replacement : option string
}.

(** Modelled from the spec: the type expressions the rules tell apart, an
    ordinary type ([int]), a callable-type expression ([Callable[..., R]]),
    a class or type-object reference ([type[X]]), a type parameter with its
    declared upper bound, and another type wrapper around a type
    ([Final[X]], [Optional[X]]). *)
Inductive TypeExpr :=
| Plain (name : string)
| CallableType (ret : TypeExpr)
| TypeObject (cls : TypeExpr)
| TypeParam (name : string) (bound : option TypeExpr)
| Wrapped (wrapper : string) (inner : TypeExpr).

(** Modelled from the spec: a [QualifiedType] pairs an inner type with a
    marker; the inner type is a [TypeExpr], so never itself qualified. *)
Record QualifiedType := Qualified {
  inner : TypeExpr;
  marker : DeprecationMarker
}.

(** Modelled from the spec: the placement shapes of section 3. *)
Inductive PlacementShape :=
| ValueQualifier
| ReturnWrapper
| ParameterQualifier
| OverloadSelector.

(** Modelled from the spec: the error taxonomy of section 7. *)
Inductive ValidationError :=
| InferenceError
| OrderingError
| IllegalReturnQualifier
| MissingDefaultError
| AllOverloadsDeprecated.

(** Modelled from the spec: the syntactic role of the declaration the
    qualifier is attached to, with what rules 2 and 4 look at. *)
Inductive Role :=
| ReturnType
| FunctionParameter (has_default : bool)
| PlainValue
| OverloadMember (some_sibling_unmarked : bool).

(** Modelled from the spec: is-invocable of rule 1, a callable-type
    expression, a class or type-object reference, or a type parameter
    whose declared upper bound is invocable. *)
Fixpoint is_invocable (t : TypeExpr) : bool :=
  match t with
  | CallableType _ => true
  | TypeObject _ => true
  | TypeParam _ (Some bound) => is_invocable bound
  | TypeParam _ None => false
  | Plain _ => false
  | Wrapped _ _ => false
  end.

(** Modelled from the spec: the validator of section 4.2, a function from
    the role and the qualified type to a shape or an error. *)
Definition validate (role : Role) (qt : QualifiedType)
    : PlacementShape + ValidationError :=
  match role with
  | ReturnType =>
      if is_invocable (inner qt) then inl ReturnWrapper
      else inr IllegalReturnQualifier
  | FunctionParameter has_default =>
      if has_default then inl ParameterQualifier else inr MissingDefaultError
  | PlainValue => inl ValueQualifier
  | OverloadMember some_sibling_unmarked =>
      if some_sibling_unmarked then inl OverloadSelector
      else inr AllOverloadsDeprecated
  end.

(** The return annotations of [invalid.py], as inner types. *)
Definition int_type : TypeExpr := Plain "int".
Definition callable_returning_int : TypeExpr := CallableType (Plain "int").
Definition T : TypeExpr := TypeParam "T" (Some (CallableType (Plain "int"))).
Definition _T_T : TypeExpr := TypeParam "_T_T" (Some (TypeObject (Plain "Any"))).

End Placement.

(** ** Stacked decorators *)

Section Stacking.
Context `{host : Host}.

(** Decorators written one above the other over a [def], topmost first:
    the name is bound to the topmost applied to the result of the next,
    down to the function the [def] creates. *)
Definition stacked (decorators : list decorator) (function : pyfunc)
    : pyfunc :=
  foldr dec_apply function decorators.

(** The decorators [deprecate_function(message, version=version)] for a
    list of message and version pairs. *)
Definition deprecations (marks : list (string * string)) : list decorator :=
  (fun mv => deprecate_function (fst mv) (snd mv)) <$> marks.

(** What stacked deprecations do before the original function runs, the
    topmost first: for each, [issue_deprecation_warning] with the message
    that names [function]; a step runs only if the one before returned. *)
Definition sink_calls (marks : list (string * string)) (function : pyfunc)
    : Py unit :=
  foldr
    (fun mv rest =>
       do_ issue_deprecation_warning
             ("`" +:+ f_qualname function +:+ "` is deprecated. " +:+ fst mv)
             (snd mv);
       rest)
    (py_ret tt) marks.

End Stacking.

(** * Properties *)

Section WrapperProperties.
Context `{host : Host}.

(** *** How the computations run *)

Lemma py_bind_ret_run {A B} (a : A) (k : A -> Py B) (s : store) :
  py_bind (py_ret a) k s = k a s.
Proof.
  unfold py_bind, py_ret. destruct (k a s) as [[s' evs] o]. reflexivity.
Qed.

Lemma py_bind_assoc_run {A B C} (m : Py A) (k : A -> Py B) (h : B -> Py C)
    (s : store) :
  py_bind (py_bind m k) h s = py_bind m (fun x => py_bind (k x) h) s.
Proof.
  unfold py_bind. destruct (m s) as [[s1 ev1] [a|e]]; [|reflexivity].
  destruct (k a s1) as [[s2 ev2] [b|e]]; [|reflexivity].
  destruct (h b s2) as [[s3 ev3] o]. rewrite (assoc_L (++)). reflexivity.
Qed.

(** [find_stacklevel()] is [None], and that is what the sink is given. *)
Lemma issue_deprecation_warning_run (message version : string) (s : store) :
  issue_deprecation_warning message version s
  = warnings_warn message DeprecationWarning VNone s.
Proof.
  unfold issue_deprecation_warning, find_stacklevel.
  rewrite py_bind_ret_run. reflexivity.
Qed.

Lemma py_bind_emit_run {A} (e : event) (k : Py A) (s : store) :
  py_bind (py_emit e) (fun _ => k) s
  = match k s with (s', evs, o) => (s', e :: evs, o) end.
Proof.
  unfold py_bind, py_emit. destruct (k s) as [[s' evs] o]. reflexivity.
Qed.

Lemma deprecate_function_apply (message version : string) (f : pyfunc) :
  dec_apply (deprecate_function message version) f
  = decorate message version f.
Proof. reflexivity. Qed.

Lemma deprecate_renamed_function_apply (new_name version : string)
    (f : pyfunc) :
  dec_apply (deprecate_renamed_function new_name version) f
  = decorate ("It has been renamed to `" +:+ new_name +:+ "`.") version f.
Proof. reflexivity. Qed.

(** A call of the wrapper: [issue_deprecation_warning] with the message
    built from the original's qualified name, then, if that returns, the
    call of the original function on the same arguments. *)
Lemma decorate_call (message version : string) (f : pyfunc) (a : args)
    (s : store) :
  f_call (decorate message version f) a s
  = py_bind
      (issue_deprecation_warning
         ("`" +:+ f_qualname f +:+ "` is deprecated. " +:+ message) version)
      (fun _ => f_call f a) s.
Proof. reflexivity. Qed.

Lemma decorate_shadowed_call (message version : string) (f : pyfunc)
    (a : args) (s : store) :
  f_call (decorate_shadowed message version f) a s
  = py_bind
      (issue_deprecation_warning
         ("`" +:+ f_qualname f +:+ "` is deprecated. " +:+ message) version)
      (fun _ => f_call f a) s.
Proof. reflexivity. Qed.

(** Two computations that start with sink calls that run alike and go on
    alike run alike. *)
Lemma py_bind_ext_run {A B} (m m' : Py A) (k : A -> Py B) (s : store) :
  m s = m' s -> py_bind m k s = py_bind m' k s.
Proof. unfold py_bind. intros ->. reflexivity. Qed.

Lemma actual_deprecator_call (func : callable) (a : args) (s : store) :
  f_call (actual_deprecator func) a s
  = match py_call func a s with
    | (s', evs, o) => (s', Printed "This function is deprecated." :: evs, o)
    end.
Proof. unfold actual_deprecator; simpl. apply py_bind_emit_run. Qed.

(** A successful construction returns an instance of the class itself. *)
Lemma construct_instance_of (k : pyclass) (a : args) (s s' : store)
    (evs : list event) (v : pyvalue) :
  construct k a s = (s', evs, Return v) -> instance_of v k.
Proof.
  unfold construct, py_bind, py_ret.
  destruct (c_init k a s) as [[s1 ev1] [attrs|e]]; intros Heq.
  - injection Heq as _ _ <-. reflexivity.
  - discriminate Heq.
Qed.

(** [inspect.signature] reads the [__signature__] attribute first. *)
Lemma inspect_signature_set (sg : py_signature) (f : pyfunc) :
  inspect_signature (set_signature sg f) = sg.
Proof. destruct f; reflexivity. Qed.

(** The attributes [@wraps] copies, on one application of [decorate]. *)
Lemma decorate_metadata (message version : string) (f : pyfunc) :
  inspect_signature (decorate message version f) = inspect_signature f
  /\ f_name (decorate message version f) = f_name f
  /\ f_qualname (decorate message version f) = f_qualname f
  /\ f_module (decorate message version f) = f_module f
  /\ f_doc (decorate message version f) = f_doc f
  /\ f_annotations (decorate message version f) = f_annotations f.
Proof.
  unfold decorate. rewrite inspect_signature_set. repeat split.
Qed.

Lemma stacked_cons (d : decorator) (ds : list decorator) (f : pyfunc) :
  stacked (d :: ds) f = dec_apply d (stacked ds f).
Proof. reflexivity. Qed.

Lemma stacked_deprecations_qualname (marks : list (string * string))
    (f : pyfunc) :
  f_qualname (stacked (deprecations marks) f) = f_qualname f.
Proof.
  induction marks as [|[m v] marks IH]; [reflexivity|].
  unfold deprecations in *. rewrite fmap_cons, stacked_cons.
  cbn [fst snd]. rewrite deprecate_function_apply.
  destruct (decorate_metadata m v
              (stacked ((fun mv => deprecate_function mv.1 mv.2) <$> marks) f))
    as (_ & _ & -> & _).
  exact IH.
Qed.

(** *** The wrapped callable, whatever the sink *)

(** C4, as amended: the message the wrapper builds and hands to
    [warnings.warn], with the category [DeprecationWarning] and what
    [find_stacklevel] returns, is the original function's qualified name
    between backticks, then [ is deprecated. ], then the message the
    decorator was built with; built through [deprecate_renamed_function],
    that message is the renaming hint.  The original function is called
    next, if the sink returns. *)
Theorem wrapper_signal_message (message version new_name : string)
    (f : pyfunc) (a : args) (s : store) :
  f_call (dec_apply (deprecate_function message version) f) a s
  = (do stacklevel <- find_stacklevel;
     do_ warnings_warn
           ("`" +:+ f_qualname f +:+ "` is deprecated. " +:+ message)
           DeprecationWarning stacklevel;
     f_call f a) s
  /\ f_call (dec_apply (deprecate_renamed_function new_name version) f) a s
     = (do stacklevel <- find_stacklevel;
        do_ warnings_warn
              ("`" +:+ f_qualname f +:+ "` is deprecated. "
                 +:+ ("It has been renamed to `" +:+ new_name +:+ "`."))
              DeprecationWarning stacklevel;
        f_call f a) s.
Proof.
  rewrite deprecate_function_apply, deprecate_renamed_function_apply.
  rewrite !decorate_call. unfold issue_deprecation_warning.
  rewrite !py_bind_assoc_run. split; reflexivity.
Qed.

(** C5, as amended: the version is accepted by
    [issue_deprecation_warning] and not forwarded.  The sink is called
    with the message, the category [DeprecationWarning] and what
    [find_stacklevel] returns, so the call and the whole run of a wrapper
    are the same whatever the version. *)
Theorem issue_deprecation_warning_ignores_version (message version
    version' : string) (f : pyfunc) (a : args) (s : store) :
  issue_deprecation_warning message version s
  = (do stacklevel <- find_stacklevel;
     warnings_warn message DeprecationWarning stacklevel) s
  /\ issue_deprecation_warning message version s
     = issue_deprecation_warning message version' s
  /\ f_call (dec_apply (deprecate_function message version) f) a s
     = f_call (dec_apply (deprecate_function message version') f) a s.
Proof.
  split; [reflexivity|]. split; [reflexivity|].
  rewrite !deprecate_function_apply, !decorate_call.
  apply py_bind_ext_run. reflexivity.
Qed.

(** C6, as amended: the wrapped function reports the signature of the
    original, with its parameters (names, kinds, defaults, annotations)
    and return annotation, and carries the original's name, qualified
    name, module, docstring, annotations and user attributes.  It is not
    the original otherwise: [__wrapped__] is set to the original,
    [__signature__] to the original's signature, its own code takes
    star-args and star-kwargs, and a call runs
    [issue_deprecation_warning] before the original call. *)
Theorem wrapper_preserves_signature (message version : string) (f : pyfunc) :
  inspect_signature (dec_apply (deprecate_function message version) f)
  = inspect_signature f
  /\ sig_parameters
       (inspect_signature (dec_apply (deprecate_function message version) f))
     = sig_parameters (inspect_signature f)
  /\ f_name (dec_apply (deprecate_function message version) f) = f_name f
  /\ f_qualname (dec_apply (deprecate_function message version) f)
     = f_qualname f
  /\ f_module (dec_apply (deprecate_function message version) f) = f_module f
  /\ f_doc (dec_apply (deprecate_function message version) f) = f_doc f
  /\ f_annotations (dec_apply (deprecate_function message version) f)
     = f_annotations f
  /\ f_dict (dec_apply (deprecate_function message version) f) = f_dict f
  /\ f_wrapped (dec_apply (deprecate_function message version) f) = Some f
  /\ f_signature_attr (dec_apply (deprecate_function message version) f)
     = Some (inspect_signature f)
  /\ f_code_signature (dec_apply (deprecate_function message version) f)
     = star_args_signature "T"
  /\ forall (a : args) (s : store),
       f_call (dec_apply (deprecate_function message version) f) a s
       = py_bind (issue_deprecation_warning
                    ("`" +:+ f_qualname f +:+ "` is deprecated. " +:+ message)
                    version)
           (fun _ => f_call f a) s.
Proof.
  rewrite deprecate_function_apply. unfold decorate.
  rewrite inspect_signature_set.
  repeat split; try reflexivity.
  simpl. apply (right_id_L ∅ (∪)).
Qed.

(** C8, as amended: instantiating a class through [actual_deprecator]
    prints exactly one line and hands no warning to the sink, then
    constructs as the class itself does: same state, same further
    emissions, the very object unwrapped construction returns, which is
    an instance of the class itself. *)
Theorem actual_deprecator_constructs_instance (k : pyclass) (a : args)
    (s s' : store) (evs : list event) (v : pyvalue) :
  construct k a s = (s', evs, Return v) ->
  f_call (actual_deprecator (CClass k)) a s
  = (s', Printed "This function is deprecated." :: evs, Return v)
  /\ instance_of v k
  /\ forall sg : signal,
       Warned sg ∈ emitted (f_call (actual_deprecator (CClass k)) a s)
       <-> Warned sg ∈ evs.
Proof.
  intros Hk.
  assert (f_call (actual_deprecator (CClass k)) a s
          = (s', Printed "This function is deprecated." :: evs, Return v))
    as Hrun.
  { rewrite actual_deprecator_call. simpl. rewrite Hk. reflexivity. }
  split; [exact Hrun|]. split; [eapply construct_instance_of, Hk|].
  intros sg. rewrite Hrun. unfold emitted; simpl.
  rewrite elem_of_cons. split; [intros [Heq|Hin]|intros Hin].
  - discriminate Heq.
  - exact Hin.
  - right; exact Hin.
Qed.

(** C9: [deprecate_func] and [deprecate_func_2] return their argument
    itself, so a call of the result runs exactly as a call of the
    argument and emits nothing more. *)
Theorem annotation_only_deprecators_are_identity (func : callable) (a : args)
    (s : store) :
  deprecate_func func = func
  /\ deprecate_func_2 func = func
  /\ py_call (deprecate_func func) a s = py_call func a s
  /\ py_call (deprecate_func_2 func) a s = py_call func a s
  /\ emitted (py_call (deprecate_func func) a s) = emitted (py_call func a s)
  /\ emitted (py_call (deprecate_func_2 func) a s)
     = emitted (py_call func a s).
Proof. repeat split. Qed.

(** C10: the two definitions of [deprecate_function] build the same
    wrapper object, hence the same run on every argument and state: same
    final state, same emissions, same result or exception. *)
Theorem deprecate_function_definitions_agree (message version : string)
    (f : pyfunc) (a : args) (s : store) :
  dec_apply (deprecate_function_shadowed message version) f
  = dec_apply (deprecate_function message version) f
  /\ f_call (dec_apply (deprecate_function_shadowed message version) f) a s
     = f_call (dec_apply (deprecate_function message version) f) a s.
Proof. split; reflexivity. Qed.

(** The two definitions differ in the annotation of what [decorate]
    returns, and in nothing a call can observe. *)
Lemma deprecate_function_annotations_differ (message version : string) :
  dec_annotations (deprecate_function_shadowed message version)
  <> dec_annotations (deprecate_function message version).
Proof. discriminate. Qed.

End WrapperProperties.

(** *** The wrapped callable under CPython's sink *)

Section CPython.
Context {S : Type} (filters : S -> signal -> filter_action * S).
Context (cm fm : string).

Local Abbreviation CPy := (cpython_host filters cm fm).

(** Under CPython the sink refuses the [None] that [find_stacklevel]
    returns: the call of the wrapper raises there, with nothing emitted,
    the state as it was, and the original function not called. *)
Lemma decorate_call_cpython (message version : string)
    (f : pyfunc (host:=CPy)) (a : args) (s : S) :
  f_call (host:=CPy) (decorate message version f) a s
  = (s, [],
     Raise (TypeError "'NoneType' object cannot be interpreted as an integer")).
Proof.
  rewrite decorate_call. unfold py_bind.
  rewrite issue_deprecation_warning_run. reflexivity.
Qed.

(** Every call of a function wrapped by [deprecate_function] or
    [deprecate_renamed_function] raises the sink's [TypeError], whatever
    the function, the arguments, the state and the filters: no warning is
    shown, the state is left as it was and the original function is not
    called. *)
Theorem deprecate_function_call_raises (message version new_name : string)
    (f : pyfunc (host:=CPy)) (a : args) (s : S) :
  f_call (host:=CPy) (dec_apply (deprecate_function message version) f) a s
  = (s, [],
     Raise (TypeError "'NoneType' object cannot be interpreted as an integer"))
  /\ f_call (host:=CPy)
       (dec_apply (deprecate_renamed_function new_name version) f) a s
     = (s, [],
        Raise (TypeError "'NoneType' object cannot be interpreted as an integer")).
Proof.
  rewrite deprecate_function_apply, deprecate_renamed_function_apply.
  rewrite !decorate_call_cpython. split; reflexivity.
Qed.

(** With at least one deprecation stacked over a function, every call
    raises the sink's [TypeError] from the topmost wrapper: nothing is
    emitted and neither the wrappers below nor the original run. *)
Theorem stacked_deprecations_call_raises (marks : list (string * string))
    (f : pyfunc (host:=CPy)) (a : args) (s : S) :
  marks <> [] ->
  f_call (host:=CPy) (stacked (deprecations marks) f) a s
  = (s, [],
     Raise (TypeError "'NoneType' object cannot be interpreted as an integer")).
Proof.
  destruct marks as [|[m v] marks]; [contradiction|]. intros _.
  unfold deprecations. rewrite fmap_cons, stacked_cons.
  cbn [fst snd]. rewrite deprecate_function_apply.
  apply decorate_call_cpython.
Qed.

(** The order of the two deprecators shows.  [deprecate_function] applied
    over [actual_deprecator] raises before anything is printed;
    [actual_deprecator] applied over [deprecate_function] prints its line
    and then raises.  The wrapped callable runs in neither. *)
Theorem deprecators_order (message version : string)
    (func : callable (host:=CPy)) (f : pyfunc (host:=CPy)) (a : args)
    (s : S) :
  f_call (host:=CPy)
    (dec_apply (deprecate_function message version) (actual_deprecator func))
    a s
  = (s, [],
     Raise (TypeError "'NoneType' object cannot be interpreted as an integer"))
  /\ f_call (host:=CPy)
       (actual_deprecator
          (CFunction (dec_apply (deprecate_function message version) f)))
       a s
     = (s, [Printed "This function is deprecated."],
        Raise (TypeError "'NoneType' object cannot be interpreted as an integer")).
Proof.
  split.
  - rewrite deprecate_function_apply. apply decorate_call_cpython.
  - rewrite actual_deprecator_call. cbn [py_call].
    rewrite deprecate_function_apply, decorate_call_cpython. reflexivity.
Qed.

End CPython.

(** *** The qualifier at run time *)

(** C3: the one-argument application [Deprecated[int]] hands the class
    [int] itself to [__class_getitem__], whose [params[0]] subscripts it:
    the application raises [TypeError] instead of producing a qualified
    type around [int]. *)
Theorem Deprecated_one_argument_raises :
  Deprecated.__class_getitem__ int_class
  = Raise (TypeError "type 'int' is not subscriptable").
Proof. reflexivity. Qed.

(** The same holds for every plain class in place of [int]. *)
Lemma Deprecated_plain_class_raises (name : string) :
  Deprecated.__class_getitem__ (OClass name)
  = Raise (TypeError ("type " +:+ quoted name +:+ " is not subscriptable")).
Proof. reflexivity. Qed.

(** What the method does produce an alias for: a subscript of at least two
    components, the first a class; the second becomes the metadata. *)
Lemma Deprecated_two_components (name : string) (metadata : pyobj)
    (more : list pyobj) :
  Deprecated.__class_getitem__ (OTuple (OClass name :: metadata :: more))
  = Return (AnnotatedAlias (OClass name) [metadata]).
Proof. reflexivity. Qed.

(** *** The placement of the qualifier on a return type *)

(** C7: on a return type the validator selects [ReturnWrapper] exactly
    when the inner type is invocable and answers [IllegalReturnQualifier]
    exactly when it is not, as for [Deprecated[int]]; the valid return
    annotations of [invalid.py] are accepted. *)
Theorem return_qualifier_placement (qt : Placement.QualifiedType)
    (m : Placement.DeprecationMarker) :
  (Placement.validate Placement.ReturnType qt = inl Placement.ReturnWrapper
   ↔ Placement.is_invocable (Placement.inner qt) = true)
  /\ (Placement.validate Placement.ReturnType qt
      = inr Placement.IllegalReturnQualifier
      ↔ Placement.is_invocable (Placement.inner qt) = false)
  /\ Placement.validate Placement.ReturnType
       (Placement.Qualified Placement.int_type m)
     = inr Placement.IllegalReturnQualifier
  /\ Placement.validate Placement.ReturnType
       (Placement.Qualified Placement.callable_returning_int m)
     = inl Placement.ReturnWrapper
  /\ Placement.validate Placement.ReturnType
       (Placement.Qualified Placement.T m)
     = inl Placement.ReturnWrapper
  /\ Placement.validate Placement.ReturnType
       (Placement.Qualified Placement._T_T m)
     = inl Placement.ReturnWrapper.
Proof.
  unfold Placement.validate.
  destruct (Placement.is_invocable (Placement.inner qt)) eqn:Hinv.
  - repeat split; try reflexivity; intros; discriminate.
  - repeat split; try reflexivity; intros; discriminate.
Qed.

(** * The sample calls of the repository *)

(** C1: [my_function(1, 2)], the call the module itself makes.  The
    function the [def] creates returns 3; the decorated [my_function]
    raises the [TypeError] of [warnings.warn], whose [stacklevel] is the
    [None] that [find_stacklevel] returns: no signal is emitted and no
    value is returned. *)
Theorem my_function_1_2_raises :
  f_call (host:=script_host) my_function_def (call_args [VInt 1; VInt 2]) tt
  = (tt, [], Return (VInt 3))
  /\ f_call (host:=script_host) my_function (call_args [VInt 1; VInt 2]) tt
     = (tt, [],
        Raise (TypeError "'NoneType' object cannot be interpreted as an integer")).
Proof. split; vm_compute; reflexivity. Qed.

(** C2: [my_function(1, "x")].  The function the [def] creates raises the
    [TypeError] of [1 + "x"]; the decorated [my_function] raises another
    failure, the [TypeError] of [warnings.warn], with no signal emitted
    and the original function not called. *)
Theorem my_function_1_x_raises_other_failure :
  f_call (host:=script_host) my_function_def
    (call_args [VInt 1; VStr "x"]) tt
  = (tt, [],
     Raise (TypeError "unsupported operand type(s) for +: 'int' and 'str'"))
  /\ f_call (host:=script_host) my_function (call_args [VInt 1; VStr "x"]) tt
     = (tt, [],
        Raise (TypeError "'NoneType' object cannot be interpreted as an integer"))
  /\ TypeError "unsupported operand type(s) for +: 'int' and 'str'"
     <> TypeError "'NoneType' object cannot be interpreted as an integer".
Proof. repeat split; try (vm_compute; reflexivity). discriminate. Qed.

(** On [my_function(1, 2)] no signal is emitted under CPython, and the
    message the sink is called with, as a recording sink keeps it,
    carries backticks around the qualified name: it is not the bare name
    followed by [ is deprecated. ] and the decorator's message. *)
Lemma my_function_message_has_backticks :
  emitted (f_call (host:=script_host) my_function
             (call_args [VInt 1; VInt 2]) tt) = []
  /\ final_store (f_call (host:=recording_host) my_function
                    (call_args [VInt 1; VInt 2]) [])
     = [("`my_function` is deprecated. Use `my_function` instead.",
         DeprecationWarning, VNone)]
  /\ "`my_function` is deprecated. Use `my_function` instead."
     <> f_qualname (host:=recording_host) my_function_def
          +:+ " is deprecated. " +:+ "Use `my_function` instead.".
Proof.
  repeat split; try (vm_compute; reflexivity). vm_compute. discriminate.
Qed.

(** Wrappers of [my_function] built with versions [0.20.4] and [1.0.0]
    call the sink with the very same arguments, as a recording sink keeps
    them, so no tag read off what reaches the sink can equal the version
    in both; under CPython the two runs are the same as well. *)
Lemma my_function_signal_has_no_version :
  final_store (f_call (host:=recording_host)
                 (dec_apply
                    (deprecate_function "Use `my_function` instead." "0.20.4")
                    my_function_def)
                 (call_args [VInt 1; VInt 2]) [])
  = final_store (f_call (host:=recording_host)
                   (dec_apply
                      (deprecate_function "Use `my_function` instead." "1.0.0")
                      my_function_def)
                   (call_args [VInt 1; VInt 2]) [])
  /\ f_call (host:=script_host)
       (dec_apply
          (deprecate_function "Use `my_function` instead." "0.20.4")
          my_function_def)
       (call_args [VInt 1; VInt 2]) tt
     = f_call (host:=script_host)
         (dec_apply
            (deprecate_function "Use `my_function` instead." "1.0.0")
            my_function_def)
         (call_args [VInt 1; VInt 2]) tt
  /\ ~ exists tag : list (string * warning_category * pyvalue) -> string,
         tag (final_store (f_call (host:=recording_host)
                (dec_apply
                   (deprecate_function "Use `my_function` instead." "0.20.4")
                   my_function_def)
                (call_args [VInt 1; VInt 2]) [])) = "0.20.4"
         /\ tag (final_store (f_call (host:=recording_host)
                   (dec_apply
                      (deprecate_function "Use `my_function` instead." "1.0.0")
                      my_function_def)
                   (call_args [VInt 1; VInt 2]) [])) = "1.0.0".
Proof.
  split; [vm_compute; reflexivity|]. split; [vm_compute; reflexivity|].
  intros [tag [H1 H2]]. vm_compute in H1, H2. rewrite H1 in H2.
  discriminate H2.
Qed.

(** The decorated [my_function] is not [my_function_def] with an emission
    step in front and nothing else changed: [__wrapped__] and
    [__signature__] are set on it and its own code signature is another. *)
Lemma my_function_differs_from_def :
  f_wrapped (host:=script_host) my_function
  <> f_wrapped (host:=script_host) my_function_def
  /\ f_signature_attr (host:=script_host) my_function
     <> f_signature_attr (host:=script_host) my_function_def
  /\ f_code_signature (host:=script_host) my_function
     <> f_code_signature (host:=script_host) my_function_def.
Proof. repeat split; discriminate. Qed.

(** [MyClass()] prints its line and hands no warning to the sink. *)
Lemma MyClass_prints_and_warns_nothing :
  emitted (f_call (host:=script_host) MyClass (call_args []) tt)
  = [Printed "This function is deprecated."]
  /\ ~ exists sg : signal,
         Warned sg
           ∈ emitted (f_call (host:=script_host) MyClass (call_args []) tt).
Proof.
  split; [vm_compute; reflexivity|].
  intros [sg Hin]. vm_compute in Hin.
  apply list_elem_of_singleton in Hin. discriminate Hin.
Qed.

(** [my_func(1, 2)] of [factories.py]: 3, and nothing emitted. *)
Lemma my_func_1_2 :
  py_call (host:=script_host) my_func (call_args [VInt 1; VInt 2]) tt
  = (tt, [], Return (VInt 3)).
Proof. vm_compute. reflexivity. Qed.

(** [MyClass()]: one printed line, then an instance of [MyClass]. *)
Lemma MyClass_instantiation :
  f_call (host:=script_host) MyClass (call_args []) tt
  = (tt, [Printed "This function is deprecated."],
     Return (VObject (ClassRef "factories" "MyClass" "MyClass") []))
  /\ instance_of (host:=script_host)
       (VObject (ClassRef "factories" "MyClass" "MyClass") []) MyClass_def
  /\ forall sg : signal,
       Warned sg
         ∈ emitted (f_call (host:=script_host) MyClass (call_args []) tt)
       <-> Warned sg ∈ ([] : list event).
Proof.
  apply (actual_deprecator_constructs_instance (host:=script_host)
           MyClass_def (call_args []) tt tt []
           (VObject (ClassRef "factories" "MyClass" "MyClass") [])).
  vm_compute. reflexivity.
Defined.

(** * Further properties of the modules *)

Section Composition.
Context `{host : Host}.

Lemma py_bind_ext_cont_run {A B} (m : Py A) (k k' : A -> Py B) (s : store) :
  (forall x s', k x s' = k' x s') -> py_bind m k s = py_bind m k' s.
Proof.
  intros Hk. unfold py_bind.
  destruct (m s) as [[s1 ev1] [x|e]]; [|reflexivity].
  rewrite Hk. reflexivity.
Qed.

(** Deprecations stacked over a function, whatever the sink: a call makes
    the sink calls of the decorators, topmost first, every message naming
    the original function, each call only if the one before returned,
    and then runs the original function. *)
Theorem stacked_deprecations_sink_calls (marks : list (string * string))
    (f : pyfunc) (a : args) (s : store) :
  f_call (stacked (deprecations marks) f) a s
  = py_bind (sink_calls marks f) (fun _ => f_call f a) s.
Proof.
  revert s. induction marks as [|[m v] marks IH]; intros s.
  - unfold sink_calls; simpl. rewrite py_bind_ret_run. reflexivity.
  - pose proof (stacked_deprecations_qualname marks f) as Hq.
    unfold deprecations in *. rewrite fmap_cons, stacked_cons.
    cbn [fst snd]. rewrite deprecate_function_apply, decorate_call, Hq.
    unfold sink_calls; simpl foldr. cbn [fst snd].
    rewrite py_bind_assoc_run. apply py_bind_ext_cont_run.
    intros _ s'. apply IH.
Qed.

(** Deprecations stacked over a function leave what introspection reads
    as the original has it: signature, name, qualified name, module,
    docstring and annotations. *)
Theorem stacked_deprecations_introspection (marks : list (string * string))
    (f : pyfunc) :
  inspect_signature (stacked (deprecations marks) f) = inspect_signature f
  /\ f_name (stacked (deprecations marks) f) = f_name f
  /\ f_qualname (stacked (deprecations marks) f) = f_qualname f
  /\ f_module (stacked (deprecations marks) f) = f_module f
  /\ f_doc (stacked (deprecations marks) f) = f_doc f
  /\ f_annotations (stacked (deprecations marks) f) = f_annotations f.
Proof.
  induction marks as [|[m v] marks IH]; [repeat split|].
  unfold deprecations in *. rewrite fmap_cons, stacked_cons.
  cbn [fst snd]. rewrite deprecate_function_apply.
  destruct (decorate_metadata m v
              (stacked ((fun mv => deprecate_function mv.1 mv.2) <$> marks) f))
    as (-> & -> & -> & -> & -> & ->).
  exact IH.
Qed.

(** The signature the wrapper reports is the original's as soon as
    [@wraps] has run: the assignment to [__signature__] that follows does
    not change what [inspect.signature] answers. *)
Theorem wraps_alone_reports_signature (message version : string)
    (f : pyfunc) :
  inspect_signature (wraps f (wrapper message version f))
  = inspect_signature f
  /\ inspect_signature
       (set_signature (inspect_signature f)
          (wraps f (wrapper message version f)))
     = inspect_signature (wraps f (wrapper message version f)).
Proof.
  rewrite inspect_signature_set.
  assert (inspect_signature (wraps f (wrapper message version f))
          = inspect_signature f) as H.
  { destruct f as [? ? ? ? ? ? [sg|] ? ? ?]; reflexivity. }
  split; [exact H | symmetry; exact H].
Qed.

(** When the wrapped callable raises, the function [actual_deprecator]
    returns raises the same exception, after its printed line and in the
    state the callable left. *)
Theorem actual_deprecator_propagates_failure (func : callable) (a : args)
    (s s' : store) (evs : list event) (e : pyexn) :
  py_call func a s = (s', evs, Raise e) ->
  f_call (actual_deprecator func) a s
  = (s', Printed "This function is deprecated." :: evs, Raise e).
Proof.
  intros Hf. rewrite actual_deprecator_call, Hf. reflexivity.
Qed.

(** [deprecate_function] applied over the result of [actual_deprecator],
    whatever the sink: the message the sink is called with names the
    inner [decorator] of [actual_deprecator], which carries no trace of
    the callable it wraps; the line is printed and the callable called
    only if the sink returns. *)
Theorem deprecation_over_actual_deprecator (message version : string)
    (func : callable) (a : args) (s : store) :
  f_call (dec_apply (deprecate_function message version)
            (actual_deprecator func)) a s
  = (do stacklevel <- find_stacklevel;
     do_ warnings_warn
           ("`actual_deprecator.<locals>.decorator` is deprecated. "
              +:+ message)
           DeprecationWarning stacklevel;
     do_ print "This function is deprecated.";
     py_call func a) s.
Proof.
  rewrite deprecate_function_apply, decorate_call.
  unfold issue_deprecation_warning. rewrite py_bind_assoc_run. reflexivity.
Qed.

End Composition.

Section SampleProperties.
Context `{host : Host}.

(** A run of the shared body never touches the state or emits. *)
Lemma add_body_run (qualname : string) (a : args) (s : store) :
  add_body qualname a s
  = (s, [],
     match bind_arguments qualname ["a"; "b"] a with
     | Raise e => Raise e
     | Return locals =>
         match load "a" locals with
         | Raise e => Raise e
         | Return x =>
             match load "b" locals with
             | Raise e => Raise e
             | Return y => py_add x y
             end
         end
     end).
Proof.
  unfold add_body, py_bind, py_lift.
  destruct (bind_arguments qualname ["a"; "b"] a) as [locals|e];
    [|reflexivity].
  destruct (load "a" locals) as [x|e]; [|reflexivity].
  destruct (load "b" locals) as [y|e]; [|reflexivity].
  destruct (py_add x y); reflexivity.
Qed.

Lemma my_func_call (a : args) (s : store) :
  py_call my_func a s = add_body "my_func" a s.
Proof. reflexivity. Qed.

(** [my_func] adds two integers however they are passed: both by
    position, both by keyword in either order, or one of each; no such
    call emits or touches the state. *)
Theorem my_func_calling_conventions (x y : Z) (s : store) :
  py_call my_func (Args [VInt x; VInt y] []) s
  = (s, [], Return (VInt (x + y)))
  /\ py_call my_func (Args [] [("a", VInt x); ("b", VInt y)]) s
     = (s, [], Return (VInt (x + y)))
  /\ py_call my_func (Args [] [("b", VInt y); ("a", VInt x)]) s
     = (s, [], Return (VInt (x + y)))
  /\ py_call my_func (Args [VInt x] [("b", VInt y)]) s
     = (s, [], Return (VInt (x + y))).
Proof.
  rewrite !my_func_call, !add_body_run. repeat split.
Qed.

(** The [int] annotations are not enforced: on two strings [my_func]
    returns their concatenation. *)
Theorem my_func_concatenates_strings (x y : string) (s : store) :
  py_call my_func (Args [VStr x; VStr y] []) s
  = (s, [], Return (VStr (x +:+ y))).
Proof.
  rewrite my_func_call, add_body_run. reflexivity.
Qed.

(** Keyword binding raises nothing but [TypeError]. *)
Lemma bind_keywords_raises_TypeError (qualname : string)
    (names : list string) (kws : list (string * pyvalue))
    (locals : gmap string pyvalue) (e : pyexn) :
  bind_keywords qualname names kws locals = Raise e ->
  exn_kind e = "TypeError".
Proof.
  revert locals. induction kws as [|[k v] kws IH]; intros locals; simpl.
  - discriminate.
  - destruct (bool_decide (k ∈ names)).
    + destruct (locals !! k).
      * intros [= <-]. reflexivity.
      * apply IH.
    + intros [= <-]. reflexivity.
Qed.

Lemma bind_arguments_raises_TypeError (qualname : string)
    (names : list string) (a : args) (e : pyexn) :
  bind_arguments qualname names a = Raise e -> exn_kind e = "TypeError".
Proof.
  unfold bind_arguments.
  destruct (bind_keywords qualname names (keywords a) _) as [locals|e0] eqn:Hk.
  - destruct (decide (length names < length (positional a))%nat).
    + intros [= <-]. reflexivity.
    + destruct (filter _ names); [discriminate|].
      intros [= <-]. reflexivity.
  - intros [= <-]. eapply bind_keywords_raises_TypeError, Hk.
Qed.

(** After a successful binding every parameter has a value. *)
Lemma bind_arguments_binds (qualname : string) (names : list string)
    (a : args) (locals : gmap string pyvalue) (n : string) :
  bind_arguments qualname names a = Return locals ->
  n ∈ names -> is_Some (locals !! n).
Proof.
  unfold bind_arguments.
  destruct (bind_keywords qualname names (keywords a) _) as [l|e0];
    [|discriminate].
  destruct (decide (length names < length (positional a))%nat);
    [discriminate|].
  destruct (filter (fun n0 => l !! n0 = None) names) eqn:Hf; [|discriminate].
  intros [= <-] Hin.
  destruct (l !! n) eqn:Hl; [eauto|].
  exfalso. eapply (filter_nil_not_elem_of _ _ _ Hf Hl), Hin.
Qed.

Lemma py_add_raises_TypeError (x y : pyvalue) (e : pyexn) :
  py_add x y = Raise e -> exn_kind e = "TypeError".
Proof.
  destruct x, y; simpl; try discriminate; intros [= <-]; reflexivity.
Qed.

(** Whatever the arguments, a failing call of [my_func] fails with a
    [TypeError]: the arguments do not fit the two parameters, or the
    values cannot be added.  No local is ever read unbound. *)
Theorem my_func_raises_only_TypeError (a : args) (s : store) (e : pyexn) :
  result (py_call my_func a s) = Raise e -> exn_kind e = "TypeError".
Proof.
  rewrite my_func_call, add_body_run. unfold result; simpl.
  destruct (bind_arguments "my_func" ["a"; "b"] a) as [locals|e0] eqn:Hb.
  - destruct (bind_arguments_binds _ _ _ _ "a" Hb) as [x Hx]; [set_solver|].
    destruct (bind_arguments_binds _ _ _ _ "b" Hb) as [y Hy]; [set_solver|].
    unfold load. rewrite Hx, Hy. apply py_add_raises_TypeError.
  - intros [= <-]. eapply bind_arguments_raises_TypeError, Hb.
Qed.

(** More than two positional arguments: the [TypeError] that counts
    them; the body does not run. *)
Theorem my_func_too_many_positional (vs : list pyvalue) (s : store) :
  (2 < length vs)%nat ->
  py_call my_func (Args vs []) s
  = (s, [],
     Raise (TypeError
       ("my_func() takes 2 positional arguments but "
          +:+ pretty (length vs) +:+ " were given"))).
Proof.
  intros Hlen. rewrite my_func_call, add_body_run.
  unfold bind_arguments. cbn [keywords positional bind_keywords length].
  destruct (decide (2 < length vs)%nat) as [_|Hn]; [|contradiction].
  destruct (decide (length vs = 1)) as [H1|_].
  - lia.
  - reflexivity.
Qed.

(** A keyword argument that names neither [a] nor [b], passed first: a
    [TypeError], whatever else is passed; the body does not run and the
    state is left alone. *)
Theorem my_func_unexpected_keyword (k : string) (v : pyvalue)
    (vs : list pyvalue) (kws : list (string * pyvalue)) (s : store) :
  k <> "a" -> k <> "b" ->
  exists msg : string,
    py_call my_func (Args vs ((k, v) :: kws)) s
    = (s, [], Raise (TypeError msg)).
Proof.
  intros Ha Hb. rewrite my_func_call, add_body_run.
  unfold bind_arguments. cbn [keywords positional bind_keywords].
  assert (bool_decide (k ∈ ["a"; "b"]) = false) as ->.
  { apply bool_decide_eq_false_2. rewrite !elem_of_cons, elem_of_nil. tauto. }
  eexists. reflexivity.
Qed.

End SampleProperties.

Section FactoriesProperties.
Context `{host : Host}.


(** [MyClass] takes no argument: called through [actual_deprecator] with
    any positional or keyword argument, it prints the line and then
    raises the constructor's [TypeError]. *)
Theorem MyClass_rejects_arguments (vs : list pyvalue)
    (kws : list (string * pyvalue)) (s : store) :
  vs <> [] \/ kws <> [] ->
  f_call MyClass (Args vs kws) s
  = (s, [Printed "This function is deprecated."],
     Raise (TypeError "MyClass() takes no arguments")).
Proof.
  intros Hne. unfold MyClass. rewrite actual_deprecator_call.
  destruct vs as [|v vs], kws as [|kw kws]; try reflexivity.
  destruct Hne as [Hne|Hne]; contradiction.
Qed.

End FactoriesProperties.

(** ** The subscripts of [Deprecated] *)

(** [Deprecated[...]] yields an alias in two cases only.  For a tuple of
    at least two components whose first is not itself a tuple, the alias
    has the first as origin and the second as only metadata, and any
    further component is dropped.  For a built-in generic class such as
    [list], given alone, the class itself is subscripted with 0 and 1 and
    the alias is [Annotated[list[0], list[1]]]. *)
Theorem Deprecated_subscript_accepted (params : pyobj) (r : annotated) :
  Deprecated.__class_getitem__ params = Return r
  <-> (exists (origin metadata : pyobj) (more : list pyobj),
         params = OTuple (origin :: metadata :: more)
         /\ (forall items : list pyobj, origin <> OTuple items)
         /\ r = AnnotatedAlias origin [metadata])
      \/ (exists name : string,
            params = OGeneric name
            /\ r = AnnotatedAlias (OAlias name 0) [OAlias name 1]).
Proof.
  split.
  - destruct params as [name|name|name index|[|origin [|metadata more]]];
      try discriminate.
    + intros [= <-]. right. exists name. split; reflexivity.
    + destruct origin as [n|n|n i|items]; try discriminate;
        intros [= <-]; left; eexists _, metadata, more;
        (split; [reflexivity|split; [discriminate|reflexivity]]).
  - intros [(origin & metadata & more & -> & Hnt & ->)|(name & -> & ->)];
      [|reflexivity].
    destruct origin as [n|n|n i|items]; try reflexivity.
    exfalso. exact (Hnt items eq_refl).
Qed.

(** A tuple subscript of fewer than two components, the empty tuple
    included, raises [IndexError]. *)
Theorem Deprecated_short_tuple_raises (items : list pyobj) :
  (length items < 2)%nat ->
  Deprecated.__class_getitem__ (OTuple items)
  = Raise (IndexError "tuple index out of range").
Proof.
  destruct items as [|x [|y more]]; simpl; intros Hlen.
  - reflexivity.
  - reflexivity.
  - simpl in Hlen. lia.
Qed.

(** * Further sample calls *)

(** [MyClass(None)]: the printed line, then the [TypeError] of the
    constructor. *)
Lemma MyClass_with_argument :
  f_call (host:=script_host) MyClass (call_args [VNone]) tt
  = (tt, [Printed "This function is deprecated."],
     Raise (TypeError "MyClass() takes no arguments")).
Proof.
  apply (actual_deprecator_propagates_failure (host:=script_host)
           (CClass MyClass_def) (call_args [VNone]) tt tt []
           (TypeError "MyClass() takes no arguments")).
  vm_compute. reflexivity.
Defined.

(** [MyClass(x=1)]. *)
Lemma MyClass_with_keyword :
  f_call (host:=script_host) MyClass (Args [] [("x", VInt 1)]) tt
  = (tt, [Printed "This function is deprecated."],
     Raise (TypeError "MyClass() takes no arguments")).
Proof.
  apply (MyClass_rejects_arguments (host:=script_host) []
           [("x", VInt 1)] tt).
  right. discriminate.
Defined.

(** Two deprecations stacked over [my_function_def]. *)
Lemma my_function_def_twice_deprecated :
  f_call (host:=script_host)
    (stacked
       (deprecations
          [("Use `my_function` instead.", "0.20.4"); ("Gone soon.", "1.0.0")])
       my_function_def)
    (call_args [VInt 1; VInt 2]) tt
  = (tt, [],
     Raise (TypeError "'NoneType' object cannot be interpreted as an integer")).
Proof.
  apply (stacked_deprecations_call_raises (S:=unit)
           (fun s _ => (ActionShow, s)) "callables" "factories"
           [("Use `my_function` instead.", "0.20.4"); ("Gone soon.", "1.0.0")]
           my_function_def (call_args [VInt 1; VInt 2]) tt).
  discriminate.
Defined.

(** [my_func(None, 2)] fails with a [TypeError]. *)
Lemma my_func_None_2 :
  result (py_call (host:=script_host) my_func (call_args [VNone; VInt 2]) tt)
  = Raise (TypeError "unsupported operand type(s) for +: 'NoneType' and 'int'")
  /\ exn_kind
       (TypeError "unsupported operand type(s) for +: 'NoneType' and 'int'")
     = "TypeError".
Proof.
  assert (result (py_call (host:=script_host) my_func
                    (call_args [VNone; VInt 2]) tt)
          = Raise (TypeError
              "unsupported operand type(s) for +: 'NoneType' and 'int'"))
    as H.
  { vm_compute. reflexivity. }
  split; [exact H|].
  exact (my_func_raises_only_TypeError (host:=script_host)
           (call_args [VNone; VInt 2]) tt _ H).
Defined.

(** [my_func(1, 2, 3)]. *)
Lemma my_func_1_2_3 :
  py_call (host:=script_host) my_func
    (call_args [VInt 1; VInt 2; VInt 3]) tt
  = (tt, [],
     Raise (TypeError
              "my_func() takes 2 positional arguments but 3 were given")).
Proof.
  apply (my_func_too_many_positional (host:=script_host)
           [VInt 1; VInt 2; VInt 3] tt).
  simpl. lia.
Defined.

(** [my_func(1, c=2)]. *)
Lemma my_func_1_c :
  exists msg : string,
    py_call (host:=script_host) my_func (Args [VInt 1] [("c", VInt 2)]) tt
    = (tt, [], Raise (TypeError msg)).
Proof.
  apply (my_func_unexpected_keyword (host:=script_host) "c" (VInt 2)
           [VInt 1] [] tt); discriminate.
Defined.

(** [Deprecated[()]], the empty tuple. *)
Lemma Deprecated_empty_tuple :
  Deprecated.__class_getitem__ (OTuple [])
  = Raise (IndexError "tuple index out of range").
Proof.
  apply (Deprecated_short_tuple_raises []). simpl. lia.
Defined.
